(** * Sensor platforms of the whirlpool and devolo_home_network integrations

    A shallow embedding of the decision logic of
    [homeassistant/components/whirlpool/sensor.py] and
    [homeassistant/components/devolo_home_network/sensor.py], with the
    properties their specification states about them.

    Python values are modelled as follows: [str] as [string], [str | None]
    as [option string], a [dict] with string keys as a [gmap], a set
    comprehension as a [gset], an exception as the left injection of a sum,
    an aware UTC [datetime] as its number of microseconds since
    0001-01-01T00:00:00. *)

From Stdlib Require Import ZArith Lia Ascii String.
From stdpp Require Import base decidable option list gmap strings.

Local Open Scope string_scope.
Local Open Scope Z_scope.

(** ** Python exceptions and fallible results *)

Inductive PyError : Type :=
| KeyError
| TypeError
| ValueError
| OverflowError.

Definition result (A : Type) : Type := (PyError + A)%type.

Definition raise {A : Type} (e : PyError) : result A := inl e.
Definition ret {A : Type} (a : A) : result A := inr a.

Definition bind {A B : Type} (r : result A) (k : A -> result B) : result B :=
  match r with
  | inl e => inl e
  | inr a => k a
  end.

(** Truth value of a [bool | None] in a Python condition. *)
Definition truthy (b : option bool) : bool :=
  match b with
  | Some true => true
  | _ => false
  end.

(** ** The builtin [int] on a [str | None]

    [int(None)] raises [TypeError]; a string that is no integer literal
    raises [ValueError]. The literal grammar embedded here is the ASCII one:
    surrounding white space, an optional sign, decimal digits, single
    underscores between digits. *)

Definition is_space (a : ascii) : bool :=
  let n := nat_of_ascii a in
  (Nat.eqb n 32 || (Nat.leb 9 n && Nat.leb n 13))%bool.

Definition digit_of (a : ascii) : option Z :=
  let n := nat_of_ascii a in
  if (Nat.leb 48 n && Nat.leb n 57)%bool then Some (Z.of_nat (n - 48)) else None.

Fixpoint lstrip (s : list ascii) : list ascii :=
  match s with
  | a :: rest => if is_space a then lstrip rest else s
  | [] => []
  end.

Definition strip (s : list ascii) : list ascii :=
  rev (lstrip (rev (lstrip s))).

Fixpoint digits (acc : Z) (after_digit : bool) (s : list ascii) : option Z :=
  match s with
  | [] => if after_digit then Some acc else None
  | a :: rest =>
      if Ascii.eqb a "_"%char then
        if after_digit then digits acc false rest else None
      else
        match digit_of a with
        | Some d => digits (10 * acc + d) true rest
        | None => None
        end
  end.

Definition literal (s : list ascii) : option Z :=
  match strip s with
  | "-"%char :: rest => Z.opp <$> digits 0 false rest
  | "+"%char :: rest => digits 0 false rest
  | body => digits 0 false body
  end.

Definition int (x : option string) : result Z :=
  match x with
  | None => raise TypeError
  | Some s =>
      match literal (list_ascii_of_string s) with
      | Some n => ret n
      | None => raise ValueError
      end
  end.

(** ** [datetime] and [timedelta]

    A [datetime] is counted in microseconds from the first instant of year 1;
    the last representable one is 9999-12-31T23:59:59.999999. A [timedelta]
    is a number of microseconds whose day count stays within 999999999 days.
    Leaving either range raises [OverflowError]. *)

Definition datetime : Type := Z.

Definition MICROSECOND : Z := 1000000.
Definition DATETIME_MAX : datetime := 3652059 * 86400 * MICROSECOND - 1.
Definition TIMEDELTA_MAX_DAYS : Z := 999999999.

Definition timedelta (seconds : Z) : result Z :=
  let days := seconds / 86400 in
  if (Z.leb (- TIMEDELTA_MAX_DAYS) days && Z.leb days TIMEDELTA_MAX_DAYS)%bool
  then ret (seconds * MICROSECOND)
  else raise OverflowError.

Definition datetime_add (t : datetime) (delta : Z) : result datetime :=
  let r := t + delta in
  if (Z.leb 0 r && Z.leb r DATETIME_MAX)%bool then ret r else raise OverflowError.

Module Whirlpool.

(** ** The vendor client

    [MachineState] and [WasherDryer] belong to the vendor package
    [whirlpool.washerdryer]. The sensor module names nineteen members of the
    enumeration; [Unlisted] stands for any member it does not name. The
    client is seen through the queries the module calls on it. *)

Inductive MachineState : Type :=
| Standby
| Setting
| DelayCountdownMode
| DelayPause
| SmartDelay
| SmartGridPause
| Pause
| RunningMainCycle
| RunningPostCycle
| Exceptions
| Complete
| PowerFailure
| ServiceDiagnostic
| FactoryDiagnostic
| LifeTest
| CustomerFocusMode
| DemoMode
| HardStopOrError
| SystemInit
| Unlisted (member : N).

#[export] Instance MachineState_eq_dec : EqDecision MachineState.
Proof. solve_decision. Defined.

(** Members are hashed through a numbering of the constructors, which makes
    them usable as dictionary keys. *)
Definition member_index (m : MachineState) : N :=
  match m with
  | Standby => 0 | Setting => 1 | DelayCountdownMode => 2 | DelayPause => 3
  | SmartDelay => 4 | SmartGridPause => 5 | Pause => 6 | RunningMainCycle => 7
  | RunningPostCycle => 8 | Exceptions => 9 | Complete => 10
  | PowerFailure => 11 | ServiceDiagnostic => 12 | FactoryDiagnostic => 13
  | LifeTest => 14 | CustomerFocusMode => 15 | DemoMode => 16
  | HardStopOrError => 17 | SystemInit => 18
  | Unlisted k => 19 + k
  end%N.

Definition named_members : list MachineState :=
  [ Standby; Setting; DelayCountdownMode; DelayPause; SmartDelay;
    SmartGridPause; Pause; RunningMainCycle; RunningPostCycle; Exceptions;
    Complete; PowerFailure; ServiceDiagnostic; FactoryDiagnostic; LifeTest;
    CustomerFocusMode; DemoMode; HardStopOrError; SystemInit ].

Definition member_of_index (n : N) : MachineState :=
  match named_members !! N.to_nat n with
  | Some m => m
  | None => Unlisted (n - 19)
  end.

#[export] Instance MachineState_countable : Countable MachineState.
Proof.
  refine (inj_countable' member_index member_of_index _).
  intros m.
  destruct m as [ | | | | | | | | | | | | | | | | | | | k]; try reflexivity.
  unfold member_of_index, member_index.
  rewrite lookup_ge_None_2 by (simpl; lia).
  f_equal. lia.
Defined.

Record WasherDryer : Type := {
  attributes : gmap string string;
  get_machine_state : MachineState;
  get_cycle_status_filling : bool;
  get_cycle_status_rinsing : bool;
  get_cycle_status_sensing : bool;
  get_cycle_status_soaking : bool;
  get_cycle_status_spinning : bool;
  get_cycle_status_washing : bool
}.

(** [get_attribute(name)]: the attribute's string, or [None]. *)
Definition get_attribute (washer : WasherDryer) (name : string) : option string :=
  attributes washer !! name.

(** ** Static tables *)

Definition TANK_FILL : gmap string string :=
  list_to_map
    [ ("0", "Unknown");
      ("1", "Empty");
      ("2", "25%");
      ("3", "50%");
      ("4", "100%");
      ("5", "Active") ].

Definition MACHINE_STATE : gmap MachineState string :=
  list_to_map
    [ (Standby, "Standby");
      (Setting, "Setting");
      (DelayCountdownMode, "Delay Countdown");
      (DelayPause, "Delay Paused");
      (SmartDelay, "Smart Delay");
      (SmartGridPause, "Smart Grid Pause");
      (Pause, "Pause");
      (RunningMainCycle, "Running Maincycle");
      (RunningPostCycle, "Running Postcycle");
      (Exceptions, "Exception");
      (Complete, "Complete");
      (PowerFailure, "Power Failure");
      (ServiceDiagnostic, "Service Diagnostic Mode");
      (FactoryDiagnostic, "Factory Diagnostic Mode");
      (LifeTest, "Life Test");
      (CustomerFocusMode, "Customer Focus Mode");
      (DemoMode, "Demo Mode");
      (HardStopOrError, "Hard Stop or Error");
      (SystemInit, "System Initialize") ].

Definition CYCLE_FUNC : list ((WasherDryer -> bool) * string) :=
  [ (get_cycle_status_filling, "Cycle Filling");
    (get_cycle_status_rinsing, "Cycle Rinsing");
    (get_cycle_status_sensing, "Cycle Sensing");
    (get_cycle_status_soaking, "Cycle Soaking");
    (get_cycle_status_spinning, "Cycle Spinning");
    (get_cycle_status_washing, "Cycle Washing") ].

(** Modelled from the spec: [homeassistant.const.STATE_UNKNOWN], the
    "unknown" sentinel, is declared outside the two sensor modules. *)
Definition STATE_UNKNOWN : string := "unknown".

(** [dict.get(key, default)]. *)
Definition dict_get `{Countable K} {V : Type}
    (d : gmap K V) (key : K) (dflt : V) : V :=
  default dflt (d !! key).

(** [dict[key]], which raises [KeyError] on an absent key; [None] is a
    legal key to ask for and is never present in a [str]-keyed table. *)
Definition dict_item {V : Type} (d : gmap string V) (key : option string) : result V :=
  match key ≫= (d !!.) with
  | Some v => ret v
  | None => raise KeyError
  end.

(** ** [washer_state] *)

(** The [for func, cycle_name in CYCLE_FUNC] loop with its early [return]:
    [Some cycle_name] when the loop returns, [None] when it runs out. *)
Fixpoint cycle_loop (funcs : list ((WasherDryer -> bool) * string))
    (washer : WasherDryer) : option string :=
  match funcs with
  | [] => None
  | (func, cycle_name) :: rest =>
      if func washer then Some cycle_name else cycle_loop rest washer
  end.

Definition washer_state (washer : WasherDryer) : string :=
  if decide (get_attribute washer "Cavity_OpStatusDoorOpen" = Some "1") then
    "Door open"
  else
    let machine_state := get_machine_state washer in
    let returned :=
      if decide (machine_state = RunningMainCycle)
      then cycle_loop CYCLE_FUNC washer
      else None in
    match returned with
    | Some cycle_name => cycle_name
    | None => dict_get MACHINE_STATE machine_state STATE_UNKNOWN
    end.

(** ** [SENSORS] and [WasherDryerClass.native_value] *)

Definition ICON_W : string := "mdi:washing-machine".

Record WhirlpoolSensorEntityDescription : Type := {
  key : string;
  name : string;
  icon : string;
  has_entity_name : bool;
  value_fn : WasherDryer -> result string
}.

(** The [lambda] of the "DispenseLevel" entry. *)
Definition dispense_level (washer : WasherDryer) : result string :=
  dict_item TANK_FILL (get_attribute washer "WashCavity_OpStatusBulkDispense1Level").

Definition SENSORS : list WhirlpoolSensorEntityDescription :=
  [ {| key := "state";
       name := "State";
       icon := ICON_W;
       has_entity_name := true;
       value_fn := fun washer => ret (washer_state washer) |};
    {| key := "DispenseLevel";
       name := "Detergent Level";
       icon := ICON_W;
       has_entity_name := true;
       value_fn := dispense_level |} ].

(** The entity's value: the description's [value_fn] on the client, with
    nothing caught on the way. *)
Definition native_value (entity_description : WhirlpoolSensorEntityDescription)
    (_wd : WasherDryer) : result string :=
  value_fn entity_description _wd.

(** ** [WasherDryerTimeClass]

    The entity's own mutable state: the [_running] flag, the stored
    timestamp [_attr_native_value], and the values handed to the host by
    [_async_write_ha_state], newest first. *)

Record WasherDryerTimeClass : Type := {
  _running : option bool;
  _attr_native_value : option datetime;
  written : list (option datetime)
}.

(** State left by [__init__]. *)
Definition init : WasherDryerTimeClass :=
  {| _running := None; _attr_native_value := None; written := [] |}.

Definition set_running (b : bool) (self : WasherDryerTimeClass) : WasherDryerTimeClass :=
  {| _running := Some b;
     _attr_native_value := _attr_native_value self;
     written := written self |}.

Definition set_native_value (t : datetime) (self : WasherDryerTimeClass) : WasherDryerTimeClass :=
  {| _running := _running self;
     _attr_native_value := Some t;
     written := written self |}.

Definition _async_write_ha_state (self : WasherDryerTimeClass) : WasherDryerTimeClass :=
  {| _running := _running self;
     _attr_native_value := _attr_native_value self;
     written := _attr_native_value self :: written self |}.

(** How a call of the callback ends, with the entity's state at that point. *)
Inductive outcome : Type :=
| Returned (self : WasherDryerTimeClass)
| Raised (e : PyError) (self : WasherDryerTimeClass).

Section TimeSensor.

(** [value] is the [.value] of a member of the vendor enumeration. *)
Variable value : MachineState -> Z.

(** [update_from_latest_data], called on every push; [wd] is the content
    of the shared client object [self._wd] at the time of the call and
    [now] what [utcnow()] returns. *)
Definition update_from_latest_data (wd : WasherDryer) (now : datetime)
    (self : WasherDryerTimeClass) : outcome :=
  let machine_state := get_machine_state wd in
  let self :=
    if (bool_decide (value machine_state ∈
                       ({[ value Complete; value Standby ]} : gset Z))
        && truthy (_running self))%bool
    then _async_write_ha_state (set_native_value now (set_running false self))
    else self in
  if decide (machine_state = RunningMainCycle) then
    let self := set_running true self in
    match
      bind (int (get_attribute wd "Cavity_TimeStatusEstTimeRemaining"))
        (fun seconds => bind (timedelta seconds) (datetime_add now))
    with
    | inr t => Returned (_async_write_ha_state (set_native_value t self))
    | inl e => Raised e self
    end
  else Returned self.

(** A run of pushes, each with the client's content and the clock reading
    at its arrival; it stops at the first call that raises. *)
Fixpoint pushes (events : list (WasherDryer * datetime))
    (self : WasherDryerTimeClass) : outcome :=
  match events with
  | [] => Returned self
  | (wd, now) :: rest =>
      match update_from_latest_data wd now self with
      | Returned self' => pushes rest self'
      | Raised e self' => Raised e self'
      end
  end.

End TimeSensor.

(** ** Entity construction and [async_setup_entry]

    [str.capitalize] and [str.lower] on ASCII text. *)

Definition upper (a : ascii) : ascii :=
  let n := nat_of_ascii a in
  if (Nat.leb 97 n && Nat.leb n 122)%bool then ascii_of_nat (n - 32) else a.

Definition lower (a : ascii) : ascii :=
  let n := nat_of_ascii a in
  if (Nat.leb 65 n && Nat.leb n 90)%bool then ascii_of_nat (n + 32) else a.

Fixpoint str_lower (s : string) : string :=
  match s with
  | EmptyString => EmptyString
  | String a rest => String (lower a) (str_lower rest)
  end.

Definition capitalize (s : string) : string :=
  match s with
  | EmptyString => EmptyString
  | String a rest => String (upper a) (str_lower rest)
  end.

Definition ICON_D : string := "mdi:tumble-dryer".

(** The one device class the module uses, a member of the host's
    [SensorDeviceClass]. *)
Inductive SensorDeviceClass : Type := TIMESTAMP.

Module SensorEntityDescription.
Record t : Type := {
  key : string;
  name : string;
  device_class : SensorDeviceClass;
  icon : string;
  has_entity_name : bool
}.
End SensorEntityDescription.

Definition SENSOR_TIMER : list SensorEntityDescription.t :=
  [ {| SensorEntityDescription.key := "timeremaining";
       SensorEntityDescription.name := "End Time";
       SensorEntityDescription.device_class := TIMESTAMP;
       SensorEntityDescription.icon := ICON_W;
       SensorEntityDescription.has_entity_name := true |} ].

Record DeviceInfo : Type := {
  identifiers : list (string * string);
  device_name : string;
  manufacturer : string
}.

(** What both [__init__] methods leave on the entity; [_attr_icon] stays
    unset unless the capitalised name is "Dryer". *)
Record EntityAttrs : Type := {
  _name : string;
  _attr_icon : option string;
  _attr_unique_id : string;
  _attr_device_info : DeviceInfo
}.

(** The last stored sensor data the host hands back after a restart. *)
Module SensorExtraStoredData.
Record t : Type := {
  native_value : option datetime;
  native_unit_of_measurement : option string
}.
End SensorExtraStoredData.

(** [WasherDryerTimeClass.async_added_to_hass]: a restored value, when the
    host has one, becomes the stored timestamp; the callback is registered
    afterwards. *)
Definition async_added_to_hass (restored_data : option SensorExtraStoredData.t)
    (self : WasherDryerTimeClass) : WasherDryerTimeClass :=
  match restored_data with
  | Some restored =>
      {| _running := _running self;
         _attr_native_value := SensorExtraStoredData.native_value restored;
         written := written self |}
  | None => self
  end.

(** An entity handed to the host: its class, its attributes, its
    description, the appliance its client [_wd] is connected to and, for the
    timestamp class, its mutable state. *)
Inductive Entity : Type :=
| WasherDryerClass (attrs : EntityAttrs)
    (entity_description : WhirlpoolSensorEntityDescription) (_wd : string)
| WasherDryerTimeClassOf (attrs : EntityAttrs)
    (entity_description : SensorEntityDescription.t) (_wd : string)
    (state : WasherDryerTimeClass).

Definition attrs_of (e : Entity) : EntityAttrs :=
  match e with
  | WasherDryerClass attrs _ _ => attrs
  | WasherDryerTimeClassOf attrs _ _ _ => attrs
  end.

Definition said_of (e : Entity) : string :=
  match e with
  | WasherDryerClass _ _ said => said
  | WasherDryerTimeClassOf _ _ said _ => said
  end.

Definition key_of (e : Entity) : string :=
  match e with
  | WasherDryerClass _ description _ => key description
  | WasherDryerTimeClassOf _ description _ _ =>
      SensorEntityDescription.key description
  end.

Section Setup.

(** [DOMAIN] is a constant of the integration's [const] module. *)
Variable DOMAIN : string.

(** The assignments shared by the two [__init__] methods. *)
Definition init_attrs (said name description_key : string) : EntityAttrs :=
  let _name := capitalize name in
  {| _name := _name;
     _attr_icon := if decide (_name = "Dryer") then Some ICON_D else None;
     _attr_unique_id := said +:+ "-" +:+ description_key;
     _attr_device_info :=
       {| identifiers := [ (DOMAIN, said) ];
          device_name := _name;
          manufacturer := "Whirlpool" |} |}.

Definition new_WasherDryerClass (said name : string)
    (description : WhirlpoolSensorEntityDescription) : Entity :=
  WasherDryerClass (init_attrs said name (key description)) description said.

Definition new_WasherDryerTimeClass (said name : string)
    (description : SensorEntityDescription.t) : Entity :=
  WasherDryerTimeClassOf
    (init_attrs said name (SensorEntityDescription.key description))
    description said init.

(** The body of the loop of [async_setup_entry] for one appliance, a [dict]
    read at "SAID" and "NAME". *)
Definition appliance_entities (appliance : gmap string string) : result (list Entity) :=
  bind (dict_item appliance (Some "SAID")) (fun said =>
  bind (dict_item appliance (Some "NAME")) (fun name =>
    ret ((new_WasherDryerClass said name <$> SENSORS)
         ++ (new_WasherDryerTimeClass said name <$> SENSOR_TIMER))%list)).

(** [async_setup_entry]: the entities passed to [async_add_entities], or the
    exception that ends the setup before that call. *)
Fixpoint async_setup_entry (washer_dryers : list (gmap string string))
    : result (list Entity) :=
  match washer_dryers with
  | [] => ret []
  | appliance :: rest =>
      bind (appliance_entities appliance) (fun entities =>
      bind (async_setup_entry rest) (fun more =>
        ret (entities ++ more)%list))
  end.

End Setup.

(** A numbering of the members with pairwise different values, as an
    enumeration has. *)
Definition sample_value (m : MachineState) : Z := Z.of_N (member_index m).

End Whirlpool.

Module Devolo.

(** ** Snapshots of the network device

    The records of the vendor package [devolo_plc_api], with the fields that
    identify them. *)

Record DataRate : Type := {
  mac_address_from : string;
  mac_address_to : string
}.

Record LogicalNetwork : Type := {
  data_rates : list DataRate
}.

Record ConnectedStationInfo : Type := {
  station_mac_address : string
}.

Record NeighborAPInfo : Type := {
  ap_mac_address : string;
  ssid : string
}.

(** [len] of a list and of a set. *)
Definition len {A : Type} (l : list A) : nat := length l.
Definition len_set (s : gset string) : nat := size s.

(** The keys of [SENSOR_TYPES] are constants of the integration's [const]
    module; they are kept symbolic. *)
Inductive SensorKey : Type :=
| CONNECTED_PLC_DEVICES
| CONNECTED_WIFI_CLIENTS
| NEIGHBORING_WIFI_NETWORKS.

Record DevoloSensorEntityDescription (DataT : Type) : Type := {
  key : SensorKey;
  icon : string;
  name : string;
  entity_registry_enabled_default : bool;
  value_func : DataT -> nat
}.

Arguments key {DataT} _.
Arguments icon {DataT} _.
Arguments name {DataT} _.
Arguments entity_registry_enabled_default {DataT} _.
Arguments value_func {DataT} _ _.

(** The snapshot type each entry is declared for. *)
Definition DataT (k : SensorKey) : Type :=
  match k with
  | CONNECTED_PLC_DEVICES => LogicalNetwork
  | CONNECTED_WIFI_CLIENTS => list ConnectedStationInfo
  | NEIGHBORING_WIFI_NETWORKS => list NeighborAPInfo
  end.

Definition SENSOR_TYPES (k : SensorKey) : DevoloSensorEntityDescription (DataT k) :=
  match k with
  | CONNECTED_PLC_DEVICES =>
      {| key := CONNECTED_PLC_DEVICES;
         entity_registry_enabled_default := false;
         icon := "mdi:lan";
         name := "Connected PLC devices";
         value_func := fun data : LogicalNetwork =>
           len_set (list_to_set (mac_address_from <$> data_rates data)) |}
  | CONNECTED_WIFI_CLIENTS =>
      {| key := CONNECTED_WIFI_CLIENTS;
         entity_registry_enabled_default := true;
         icon := "mdi:wifi";
         name := "Connected Wifi clients";
         value_func := len |}
  | NEIGHBORING_WIFI_NETWORKS =>
      {| key := NEIGHBORING_WIFI_NETWORKS;
         entity_registry_enabled_default := false;
         icon := "mdi:wifi-marker";
         name := "Neighboring Wifi networks";
         value_func := len |}
  end.

(** [DevoloSensorEntity.native_value] on the coordinator's snapshot. *)
Definition native_value (k : SensorKey) (data : DataT k) : nat :=
  value_func (SENSOR_TYPES k) data.

(** The count the specification asks for: the source addresses of the
    data-rate records, each counted once. *)
Definition distinct_sources (data : LogicalNetwork) : nat :=
  length (remove_dups (mac_address_from <$> data_rates data)).

(** ** [async_setup_entry] of the network device *)

Record DataUpdateCoordinator (T : Type) : Type := { data : T }.
Arguments data {T} _.

Inductive PlcNetApi : Type := plcnet_api.

Record DeviceApi : Type := { features : list string }.

Record Device : Type := {
  plcnet : option PlcNetApi;
  device : option DeviceApi
}.

Record DevoloSensorEntity : Type := {
  entity_key : SensorKey;
  coordinator : DataUpdateCoordinator (DataT entity_key);
  entity_device : Device;
  device_name : string
}.

(** [DevoloSensorEntity.native_value] of a constructed entity. *)
Definition entity_native_value (entity : DevoloSensorEntity) : nat :=
  value_func (SENSOR_TYPES (entity_key entity)) (data (coordinator entity)).

(** The [coordinators] dictionary, read at the three keys. *)
Definition Coordinators : Type :=
  forall k : SensorKey, option (DataUpdateCoordinator (DataT k)).

(** [coordinators[k]]. *)
Definition coordinator_item (coordinators : Coordinators) (k : SensorKey)
    : result (DataUpdateCoordinator (DataT k)) :=
  match coordinators k with
  | Some c => ret c
  | None => raise KeyError
  end.

(** [device.device and "wifi1" in device.device.features]. *)
Definition has_wifi (d : Device) : bool :=
  match device d with
  | Some api => bool_decide ("wifi1" ∈ features api)
  | None => false
  end.

Definition new_entity (coordinators : Coordinators) (d : Device) (title : string)
    (k : SensorKey) : result DevoloSensorEntity :=
  bind (coordinator_item coordinators k) (fun c =>
    ret {| entity_key := k; coordinator := c;
           entity_device := d; device_name := title |}).

(** [async_setup_entry]: the entities passed to [async_add_entities], or the
    exception that ends the setup before that call. *)
Definition async_setup_entry (d : Device) (coordinators : Coordinators)
    (title : string) : result (list DevoloSensorEntity) :=
  bind (match plcnet d with
        | Some _ =>
            bind (new_entity coordinators d title CONNECTED_PLC_DEVICES)
              (fun e => ret [e])
        | None => ret []
        end) (fun entities =>
  if has_wifi d then
    bind (new_entity coordinators d title CONNECTED_WIFI_CLIENTS) (fun e1 =>
    bind (new_entity coordinators d title NEIGHBORING_WIFI_NETWORKS) (fun e2 =>
      ret (entities ++ [e1; e2])%list))
  else ret entities).

End Devolo.

Import Whirlpool.

(** ** Sample inputs *)

(** A client with the given attributes and machine state whose six
    sub-status predicates are all false. *)
Definition quiet_washer (attrs : gmap string string) (state : MachineState)
    : WasherDryer :=
  {| attributes := attrs;
     get_machine_state := state;
     get_cycle_status_filling := false;
     get_cycle_status_rinsing := false;
     get_cycle_status_sensing := false;
     get_cycle_status_soaking := false;
     get_cycle_status_spinning := false;
     get_cycle_status_washing := false |}.

(** Main cycle, rinsing and spinning both reported, door as given. *)
Definition rinsing_and_spinning (door : string) : WasherDryer :=
  {| attributes := {[ "Cavity_OpStatusDoorOpen" := door ]};
     get_machine_state := RunningMainCycle;
     get_cycle_status_filling := false;
     get_cycle_status_rinsing := true;
     get_cycle_status_sensing := false;
     get_cycle_status_soaking := false;
     get_cycle_status_spinning := true;
     get_cycle_status_washing := false |}.

(** Main cycle with the given remaining-time attribute. *)
Definition running_washer (remaining : string) : WasherDryer :=
  quiet_washer {[ "Cavity_TimeStatusEstTimeRemaining" := remaining ]}
    RunningMainCycle.

(** The second entry of [SENSORS]. *)
Definition detergent_level : WhirlpoolSensorEntityDescription :=
  {| key := "DispenseLevel";
     name := "Detergent Level";
     icon := ICON_W;
     has_entity_name := true;
     value_fn := dispense_level |}.

(** 2023-01-01T00:00:00 UTC, day 738521 of the calendar. *)
Definition new_year_2023 : datetime := 738520 * 86400 * MICROSECOND.

(** An entity in the middle of a run. *)
Definition mid_run : WasherDryerTimeClass :=
  {| _running := Some true;
     _attr_native_value := Some (new_year_2023 + 600 * MICROSECOND);
     written := [Some (new_year_2023 + 600 * MICROSECOND)] |}.

(** ** Auxiliary notions of the statements *)

(** The machine state a status string stands for, when it stands for one. *)
Definition state_of_status (status : string) : option MachineState :=
  if bool_decide (status ∈ CYCLE_FUNC.*2) then Some RunningMainCycle
  else head (filter (fun m => MACHINE_STATE !! m = Some status) named_members).

(** A push in the main cycle that stores a timestamp. *)
Definition stores_estimate (event : WasherDryer * datetime) : Prop :=
  get_machine_state event.1 = RunningMainCycle
  /\ exists seconds,
       int (get_attribute event.1 "Cavity_TimeStatusEstTimeRemaining") = ret seconds
       /\ 0 <= event.2 <= DATETIME_MAX
       /\ 0 <= event.2 + seconds * MICROSECOND <= DATETIME_MAX.

(** Whether a character occurs in a string. *)
Fixpoint occurs (c : ascii) (s : string) : bool :=
  match s with
  | EmptyString => false
  | String a rest => (Ascii.eqb a c || occurs c rest)%bool
  end.

(** The three entities built for one appliance. *)
Definition built_for (DOMAIN said name : string) : list Entity :=
  (new_WasherDryerClass DOMAIN said name <$> SENSORS)
  ++ (new_WasherDryerTimeClass DOMAIN said name <$> SENSOR_TIMER).

(** The source addresses of a snapshot's data-rate records. *)
Definition sources (data : Devolo.LogicalNetwork) : list string :=
  Devolo.mac_address_from <$> Devolo.data_rates data.

(** ** Further sample inputs *)

Definition two_appliances : list (gmap string string) :=
  [ {[ "SAID" := "WPR1"; "NAME" := "washer" ]};
    {[ "SAID" := "WPR2"; "NAME" := "DRYER" ]} ].

(** Main cycle, rinsing alone reported, no door attribute. *)
Definition rinsing_only : WasherDryer :=
  {| attributes := ∅;
     get_machine_state := RunningMainCycle;
     get_cycle_status_filling := false;
     get_cycle_status_rinsing := true;
     get_cycle_status_sensing := false;
     get_cycle_status_soaking := false;
     get_cycle_status_spinning := false;
     get_cycle_status_washing := false |}.

(** A cycle of two estimates, the second five seconds after the first. *)
Definition two_estimates : list (WasherDryer * datetime) :=
  [ (running_washer "600", new_year_2023);
    (running_washer "300", new_year_2023 + 5 * MICROSECOND) ].

Definition last_stored : Whirlpool.SensorExtraStoredData.t :=
  {| Whirlpool.SensorExtraStoredData.native_value :=
       Some (new_year_2023 + 600 * MICROSECOND);
     Whirlpool.SensorExtraStoredData.native_unit_of_measurement := None |}.

Definition link (source destination : string) : Devolo.DataRate :=
  {| Devolo.mac_address_from := source; Devolo.mac_address_to := destination |}.

(** A powerline adapter with Wi-Fi, and a registry with all three
    coordinators. *)
Definition wifi_adapter : Devolo.Device :=
  {| Devolo.plcnet := Some Devolo.plcnet_api;
     Devolo.device := Some {| Devolo.features := ["led"; "wifi1"] |} |}.

Definition all_coordinators : Devolo.Coordinators :=
  fun k =>
    match k return option (Devolo.DataUpdateCoordinator (Devolo.DataT k)) with
    | Devolo.CONNECTED_PLC_DEVICES =>
        Some {| Devolo.data :=
                  {| Devolo.data_rates := [link "A" "B"; link "B" "A"] |} |}
    | Devolo.CONNECTED_WIFI_CLIENTS => Some {| Devolo.data := [] |}
    | Devolo.NEIGHBORING_WIFI_NETWORKS => Some {| Devolo.data := [] |}
    end.

(** * Properties of the status resolver *)

Section StatusResolver.

Implicit Types washer : WasherDryer.

Lemma cycle_loop_first washer
    (before after : list ((WasherDryer -> bool) * string))
    (func : WasherDryer -> bool) (cycle_name : string) :
  Forall (fun entry => entry.1 washer = false) before ->
  func washer = true ->
  cycle_loop (before ++ (func, cycle_name) :: after)%list washer = Some cycle_name.
Proof.
  intros Hbefore Hfunc.
  induction Hbefore as [ | [g n] rest Hg _ IH]; simpl.
  - by rewrite Hfunc.
  - simpl in Hg. by rewrite Hg.
Qed.

Lemma cycle_loop_none washer funcs :
  Forall (fun entry => entry.1 washer = false) funcs ->
  cycle_loop funcs washer = None.
Proof.
  induction 1 as [ | [g n] rest Hg _ IH]; simpl; [done | ].
  simpl in Hg. by rewrite Hg.
Qed.

Lemma cycle_loop_some washer funcs cycle_name :
  cycle_loop funcs washer = Some cycle_name ->
  exists func, (func, cycle_name) ∈ funcs /\ func washer = true.
Proof.
  induction funcs as [ | [g n] rest IH]; simpl; [done | ].
  destruct (g washer) eqn:Hg.
  - intros [= <-]. exists g. split; [left | done].
  - intros [func [Hin Hfunc]]%IH. exists func. split; [by right | done].
Qed.

Lemma machine_state_listed m :
  MACHINE_STATE !! m = None <-> exists k, m = Unlisted k.
Proof.
  split.
  - destruct m; try (vm_compute; discriminate). eauto.
  - intros [k ->]. unfold MACHINE_STATE.
    apply not_elem_of_list_to_map_1. simpl.
    rewrite !not_elem_of_cons. repeat split; try discriminate.
    apply not_elem_of_nil.
Qed.

(** C4: whenever the door-open attribute reads "1", the resolver returns
    "Door open", whatever the machine state and the sub-status
    predicates are. *)
Theorem door_open_preempts washer :
  get_attribute washer "Cavity_OpStatusDoorOpen" = Some "1" ->
  washer_state washer = "Door open".
Proof.
  intros Hdoor. unfold washer_state.
  by rewrite decide_True.
Qed.

(** C5: with the door not open and the machine in its main cycle, the
    resolver probes filling, rinsing, sensing, soaking, spinning and
    washing in that order and returns the label of the first predicate
    that holds, also when later ones hold too. *)
Theorem first_true_cycle_wins washer
    (before after : list ((WasherDryer -> bool) * string))
    (func : WasherDryer -> bool) (cycle_name : string) :
  get_attribute washer "Cavity_OpStatusDoorOpen" <> Some "1" ->
  get_machine_state washer = RunningMainCycle ->
  CYCLE_FUNC = (before ++ (func, cycle_name) :: after)%list ->
  Forall (fun entry => entry.1 washer = false) before ->
  func washer = true ->
  (fun entry => (entry.1 washer, entry.2)) <$> CYCLE_FUNC =
    [ (get_cycle_status_filling washer, "Cycle Filling");
      (get_cycle_status_rinsing washer, "Cycle Rinsing");
      (get_cycle_status_sensing washer, "Cycle Sensing");
      (get_cycle_status_soaking washer, "Cycle Soaking");
      (get_cycle_status_spinning washer, "Cycle Spinning");
      (get_cycle_status_washing washer, "Cycle Washing") ]
  /\ washer_state washer = cycle_name.
Proof.
  intros Hdoor Hstate Hsplit Hbefore Hfunc.
  split; [reflexivity | ].
  unfold washer_state.
  rewrite decide_False by done.
  rewrite Hstate, decide_True by done.
  rewrite Hsplit.
  by rewrite cycle_loop_first.
Qed.

(** C6: with the door not open, the machine in its main cycle and none of
    the six predicates true, the resolver falls through to the static
    table and returns "Running Maincycle". *)
Theorem running_without_cycle washer :
  get_attribute washer "Cavity_OpStatusDoorOpen" <> Some "1" ->
  get_machine_state washer = RunningMainCycle ->
  get_cycle_status_filling washer = false ->
  get_cycle_status_rinsing washer = false ->
  get_cycle_status_sensing washer = false ->
  get_cycle_status_soaking washer = false ->
  get_cycle_status_spinning washer = false ->
  get_cycle_status_washing washer = false ->
  washer_state washer = "Running Maincycle".
Proof.
  intros Hdoor Hstate Hf Hr Hse Hso Hsp Hw.
  unfold washer_state.
  rewrite decide_False by done.
  rewrite Hstate, decide_True by done.
  rewrite cycle_loop_none; [reflexivity | ].
  unfold CYCLE_FUNC. by repeat constructor.
Qed.

(** C7: with the door not open, a machine state that the static table
    does not list resolves to the "unknown" sentinel; the resolver
    returns a string and raises nothing. *)
Theorem unlisted_state_is_unknown washer :
  get_attribute washer "Cavity_OpStatusDoorOpen" <> Some "1" ->
  MACHINE_STATE !! get_machine_state washer = None ->
  washer_state washer = STATE_UNKNOWN /\ STATE_UNKNOWN = "unknown".
Proof.
  intros Hdoor Habsent. split; [ | reflexivity].
  unfold washer_state.
  rewrite decide_False by done.
  rewrite decide_False.
  - unfold dict_get. by rewrite Habsent.
  - intros Hrun. by rewrite Hrun in Habsent.
Qed.

(** C10: only the string "1" counts as an open door. With any other value
    of the attribute, a missing one included, the resolver never answers
    "Door open": its answer is the label of a sub-status predicate that
    holds during the main cycle, or the static table's entry for the
    machine state with "unknown" as the default. *)
Theorem door_open_only_on_one washer :
  get_attribute washer "Cavity_OpStatusDoorOpen" <> Some "1" ->
  washer_state washer <> "Door open"
  /\ ((get_machine_state washer = RunningMainCycle
       /\ exists func, (func, washer_state washer) ∈ CYCLE_FUNC
                       /\ func washer = true)
      \/ washer_state washer =
           default STATE_UNKNOWN (MACHINE_STATE !! get_machine_state washer)).
Proof.
  intros Hdoor.
  assert (Hcases :
    (get_machine_state washer = RunningMainCycle
     /\ exists func, (func, washer_state washer) ∈ CYCLE_FUNC
                     /\ func washer = true)
    \/ washer_state washer =
         default STATE_UNKNOWN (MACHINE_STATE !! get_machine_state washer)).
  { unfold washer_state.
    rewrite decide_False by done.
    destruct (decide (get_machine_state washer = RunningMainCycle))
      as [Hrun | Hrun]; [ | by right].
    destruct (cycle_loop CYCLE_FUNC washer) as [cycle_name | ] eqn:Hloop;
      [ | by right].
    left. split; [done | ]. by apply cycle_loop_some. }
  split; [ | exact Hcases].
  destruct Hcases as [[_ [func [Hin _]]] | Htable].
  - intros Heq. rewrite Heq in Hin.
    unfold CYCLE_FUNC in Hin.
    rewrite !elem_of_cons in Hin.
    destruct Hin as [Hin | [Hin | [Hin | [Hin | [Hin | [Hin | Hin]]]]]];
      try discriminate Hin.
    by apply elem_of_nil in Hin.
  - rewrite Htable.
    destruct (get_machine_state washer) as [ | | | | | | | | | | | | | | | | | | | k];
      try (vm_compute; discriminate).
    rewrite (proj2 (machine_state_listed (Unlisted k))) by eauto.
    discriminate.
Qed.

Lemma dispense_level_entry description :
  description ∈ SENSORS -> key description = "DispenseLevel" ->
  value_fn description = dispense_level.
Proof.
  unfold SENSORS. rewrite !elem_of_cons.
  intros [-> | [-> | Hin]] Hkey; try discriminate Hkey; [reflexivity | ].
  by apply elem_of_nil in Hin.
Qed.

(** C8: the fill-level sensor is a plain lookup in a table of six entries,
    keyed "0" to "5"; each of these codes gives its label, and any other
    reported value, a missing one included, makes the lookup raise
    [KeyError], which reaches the caller of the entity's value: the table
    has no default. *)
Theorem dispense_level_lookup description washer :
  description ∈ SENSORS ->
  key description = "DispenseLevel" ->
  size TANK_FILL = 6%nat
  /\ (forall code label,
        (code, label) ∈ [ ("0", "Unknown"); ("1", "Empty"); ("2", "25%");
                          ("3", "50%"); ("4", "100%"); ("5", "Active") ] ->
        get_attribute washer "WashCavity_OpStatusBulkDispense1Level" = Some code ->
        native_value description washer = ret label)
  /\ ((forall code,
        get_attribute washer "WashCavity_OpStatusBulkDispense1Level" = Some code ->
        code ∉ [ "0"; "1"; "2"; "3"; "4"; "5" ]) ->
      native_value description washer = raise KeyError).
Proof.
  intros Hin Hkey. unfold native_value.
  rewrite (dispense_level_entry description Hin Hkey). clear Hin Hkey.
  split; [reflexivity | split].
  - intros code label Hin Hattr.
    unfold dispense_level. rewrite Hattr.
    rewrite !elem_of_cons in Hin.
    destruct Hin as [Hin | [Hin | [Hin | [Hin | [Hin | [Hin | Hin]]]]]];
      try (injection Hin as -> ->; reflexivity).
    by apply elem_of_nil in Hin.
  - intros Hout. unfold dispense_level, dict_item.
    destruct (get_attribute washer _) as [code | ]; [ | reflexivity].
    simpl.
    assert (Hnone : TANK_FILL !! code = None).
    { apply not_elem_of_list_to_map_1. simpl. by apply Hout. }
    by rewrite Hnone.
Qed.

End StatusResolver.

(** * Properties of the completion-timestamp updater *)

Section TimestampUpdater.

Variable value : MachineState -> Z.

Implicit Types (wd : WasherDryer) (self : WasherDryerTimeClass).
Implicit Types (now : datetime) (seconds : Z).

Lemma finished_value_in_set m :
  m = Complete \/ m = Standby ->
  bool_decide (value m ∈ ({[ value Complete; value Standby ]} : gset Z)) = true.
Proof.
  intros [-> | ->]; apply bool_decide_eq_true; set_solver.
Qed.

Lemma timedelta_within now seconds :
  0 <= now <= DATETIME_MAX ->
  0 <= now + seconds * MICROSECOND <= DATETIME_MAX ->
  timedelta seconds = ret (seconds * MICROSECOND).
Proof.
  unfold DATETIME_MAX, MICROSECOND. intros Hnow Hsum.
  unfold timedelta, TIMEDELTA_MAX_DAYS, MICROSECOND.
  assert (Hlo : - 3652060 <= seconds / 86400)
    by (apply Z.div_le_lower_bound; lia).
  assert (Hhi : seconds / 86400 <= 3652060)
    by (apply Z.div_le_upper_bound; lia).
  rewrite (proj2 (Z.leb_le _ _)) by lia.
  rewrite (proj2 (Z.leb_le _ _)) by lia.
  reflexivity.
Qed.

Lemma datetime_add_within now delta :
  0 <= now + delta <= DATETIME_MAX ->
  datetime_add now delta = ret (now + delta).
Proof.
  intros [Hlo Hhi]. unfold datetime_add.
  rewrite (proj2 (Z.leb_le _ _)) by exact Hlo.
  rewrite (proj2 (Z.leb_le _ _)) by exact Hhi.
  reflexivity.
Qed.

(** One push during the main cycle. *)
Lemma running_push wd now seconds self :
  get_machine_state wd = RunningMainCycle ->
  int (get_attribute wd "Cavity_TimeStatusEstTimeRemaining") = ret seconds ->
  0 <= now <= DATETIME_MAX ->
  0 <= now + seconds * MICROSECOND <= DATETIME_MAX ->
  exists self',
    update_from_latest_data value wd now self = Returned self'
    /\ _running self' = Some true
    /\ _attr_native_value self' = Some (now + seconds * MICROSECOND)
    /\ head (written self') = Some (Some (now + seconds * MICROSECOND)).
Proof.
  intros Hstate Hint Hnow Hsum.
  unfold update_from_latest_data.
  rewrite Hstate, decide_True by done.
  rewrite Hint. simpl.
  rewrite (timedelta_within now) by done. simpl.
  rewrite datetime_add_within by done.
  eexists. split; [reflexivity | ]. by simpl.
Qed.

(** C1: a push during the main cycle sets the running flag and stores the
    arrival instant plus the reported remaining seconds. Every such push
    recomputes the value, so a later push whose estimate ends before the
    stored one (300 s reported 5 s after 600 s, say) moves the stored
    timestamp earlier. *)
Theorem running_push_recomputes wd1 wd2 now1 now2 seconds1 seconds2 self :
  get_machine_state wd1 = RunningMainCycle ->
  get_machine_state wd2 = RunningMainCycle ->
  int (get_attribute wd1 "Cavity_TimeStatusEstTimeRemaining") = ret seconds1 ->
  int (get_attribute wd2 "Cavity_TimeStatusEstTimeRemaining") = ret seconds2 ->
  0 <= now1 <= DATETIME_MAX ->
  0 <= now2 <= DATETIME_MAX ->
  0 <= now1 + seconds1 * MICROSECOND <= DATETIME_MAX ->
  0 <= now2 + seconds2 * MICROSECOND <= DATETIME_MAX ->
  exists self1 self2 stored1 stored2,
    update_from_latest_data value wd1 now1 self = Returned self1
    /\ update_from_latest_data value wd2 now2 self1 = Returned self2
    /\ _running self1 = Some true
    /\ _running self2 = Some true
    /\ _attr_native_value self1 = Some stored1
    /\ _attr_native_value self2 = Some stored2
    /\ stored1 = now1 + seconds1 * MICROSECOND
    /\ stored2 = now2 + seconds2 * MICROSECOND
    /\ (now2 - now1 < (seconds1 - seconds2) * MICROSECOND -> stored2 < stored1).
Proof.
  intros Hstate1 Hstate2 Hint1 Hint2 Hnow1 Hnow2 Hsum1 Hsum2.
  destruct (running_push wd1 now1 seconds1 self)
    as (self1 & Hrun1 & Hflag1 & Hval1 & _); try done.
  destruct (running_push wd2 now2 seconds2 self1)
    as (self2 & Hrun2 & Hflag2 & Hval2 & _); try done.
  exists self1, self2, (now1 + seconds1 * MICROSECOND),
    (now2 + seconds2 * MICROSECOND).
  repeat split; try done.
  unfold MICROSECOND. lia.
Qed.

(** One push that ends a run. *)
Lemma finishing_push wd now self :
  get_machine_state wd = Complete \/ get_machine_state wd = Standby ->
  _running self = Some true ->
  update_from_latest_data value wd now self =
    Returned (_async_write_ha_state (set_native_value now (set_running false self))).
Proof.
  intros Hstate Hflag.
  unfold update_from_latest_data.
  rewrite finished_value_in_set by done.
  rewrite Hflag. simpl.
  rewrite decide_False; [reflexivity | ].
  destruct Hstate as [-> | ->]; discriminate.
Qed.

(** C2: a push in state complete or standby that finds the running flag
    set clears the flag and stores the instant of the call itself; no
    attribute of the client enters the stored value. *)
Theorem finish_push_stores_now wd now self :
  get_machine_state wd = Complete \/ get_machine_state wd = Standby ->
  _running self = Some true ->
  update_from_latest_data value wd now self =
    Returned {| _running := Some false;
                _attr_native_value := Some now;
                written := Some now :: written self |}.
Proof.
  intros Hstate Hflag.
  unfold update_from_latest_data.
  rewrite finished_value_in_set by done.
  rewrite Hflag. simpl.
  rewrite decide_False; [reflexivity | ].
  destruct Hstate as [-> | ->]; discriminate.
Qed.

Section DistinctValues.

(** Different members of an enumeration carry different values. *)
Hypothesis value_inj : forall m m', value m = value m' -> m = m'.

Lemma finished_value_iff m :
  bool_decide (value m ∈ ({[ value Complete; value Standby ]} : gset Z)) = true
  <-> m = Complete \/ m = Standby.
Proof.
  split; [ | apply finished_value_in_set].
  intros Hin%bool_decide_eq_true.
  apply elem_of_union in Hin as [Hin | Hin];
    apply elem_of_singleton, value_inj in Hin; auto.
Qed.

(** A push that is neither of the two transitions changes nothing. *)
Lemma idle_push wd now self :
  get_machine_state wd <> RunningMainCycle ->
  ~ ((get_machine_state wd = Complete \/ get_machine_state wd = Standby)
     /\ _running self = Some true) ->
  update_from_latest_data value wd now self = Returned self.
Proof.
  intros Hnot_running Hnot_finish.
  unfold update_from_latest_data.
  rewrite (decide_False (P := _ = RunningMainCycle)) by done.
  destruct (bool_decide _) eqn:Hin; simpl; [ | reflexivity].
  apply finished_value_iff in Hin.
  destruct (_running self) as [[ | ] | ]; simpl; try reflexivity.
  by destruct Hnot_finish.
Qed.

Lemma idle_pushes events self :
  Forall (fun event => get_machine_state event.1 <> RunningMainCycle) events ->
  _running self <> Some true ->
  pushes value events self = Returned self.
Proof.
  intros Hevents Hflag.
  induction Hevents as [ | [wd now] rest Hwd _ IH]; simpl; [reflexivity | ].
  rewrite idle_push; [exact IH | exact Hwd | ].
  intros [_ Hset]. by apply Hflag.
Qed.

(** C3: a push whose machine state is not the main cycle, and is not
    complete or standby with the running flag set, leaves the running
    flag, the stored timestamp and the written values as they are. In
    particular, after the push that ends a run, any number of further
    complete or standby pushes keep the stored timestamp. *)
Theorem other_push_changes_nothing wd now self :
  get_machine_state wd <> RunningMainCycle ->
  ~ ((get_machine_state wd = Complete \/ get_machine_state wd = Standby)
     /\ _running self = Some true) ->
  update_from_latest_data value wd now self = Returned self
  /\ forall wd0 now0 self0 later,
       get_machine_state wd0 = Complete \/ get_machine_state wd0 = Standby ->
       _running self0 = Some true ->
       Forall (fun event => get_machine_state event.1 = Complete
                            \/ get_machine_state event.1 = Standby) later ->
       exists finished,
         update_from_latest_data value wd0 now0 self0 = Returned finished
         /\ _attr_native_value finished = Some now0
         /\ pushes value later finished = Returned finished.
Proof.
  intros Hnot_running Hnot_finish.
  split; [by apply idle_push | ].
  intros wd0 now0 self0 later Hstate Hflag Hlater.
  eexists. split; [by apply finishing_push | ].
  split; [reflexivity | ].
  apply idle_pushes; [ | discriminate].
  eapply Forall_impl; [exact Hlater | ].
  intros [wd' now'] [Heq | Heq]; simpl in *; rewrite Heq; discriminate.
Qed.

End DistinctValues.

End TimestampUpdater.

(** * Properties of the network metric adapter *)

Section NetworkMetrics.

Import Devolo.

Lemma size_list_to_set_strings (l : list string) :
  size (list_to_set l : gset string) = length (remove_dups l).
Proof.
  rewrite <- (size_list_to_set (C := gset string) (remove_dups l))
    by apply NoDup_remove_dups.
  f_equal. apply set_eq. intros a.
  by rewrite !elem_of_list_to_set, elem_of_remove_dups.
Qed.

(** C9: the powerline metric is the number of distinct source addresses of
    the snapshot's data-rate records, the Wi-Fi clients metric the length
    of the station list, the neighbouring-networks metric the length of
    the access-point list. *)
Theorem metric_values :
  (forall data : LogicalNetwork,
     native_value CONNECTED_PLC_DEVICES data = distinct_sources data
     /\ exists sources : list string,
          NoDup sources
          /\ (forall a, a ∈ sources <->
                exists rate, rate ∈ data_rates data /\ mac_address_from rate = a)
          /\ native_value CONNECTED_PLC_DEVICES data = length sources)
  /\ (forall stations : list ConnectedStationInfo,
        native_value CONNECTED_WIFI_CLIENTS stations = length stations)
  /\ (forall aps : list NeighborAPInfo,
        native_value NEIGHBORING_WIFI_NETWORKS aps = length aps).
Proof.
  split; [ | split; reflexivity].
  intros data.
  assert (Hcount : native_value CONNECTED_PLC_DEVICES data = distinct_sources data)
    by apply size_list_to_set_strings.
  split; [exact Hcount | ].
  exists (remove_dups (mac_address_from <$> data_rates data)).
  split; [apply NoDup_remove_dups | ].
  split; [ | exact Hcount].
  intros a. rewrite elem_of_remove_dups, list_elem_of_fmap.
  split; intros [rate [H1 H2]]; exists rate; by split.
Qed.

(** Sources A, A, B, C count as three devices. *)
Example three_distinct_sources :
  native_value CONNECTED_PLC_DEVICES
    {| data_rates := [ {| mac_address_from := "A"; mac_address_to := "B" |};
                       {| mac_address_from := "A"; mac_address_to := "C" |};
                       {| mac_address_from := "B"; mac_address_to := "A" |};
                       {| mac_address_from := "C"; mac_address_to := "A" |} ] |}
  = 3%nat.
Proof. vm_compute. reflexivity. Qed.

End NetworkMetrics.

(** * The properties at sample inputs *)

Lemma sample_value_inj (m m' : MachineState) :
  sample_value m = sample_value m' -> m = m'.
Proof.
  unfold sample_value. intros Heq%N2Z.inj.
  destruct m, m'; simpl in Heq; try reflexivity; try lia.
  f_equal. lia.
Qed.

Ltac in_range := unfold new_year_2023, DATETIME_MAX, MICROSECOND; lia.

Lemma door_open_preempts_witness :
  get_attribute (rinsing_and_spinning "1") "Cavity_OpStatusDoorOpen" = Some "1"
  /\ washer_state (rinsing_and_spinning "1") = "Door open".
Proof.
  split; [reflexivity | ].
  apply door_open_preempts. reflexivity.
Defined.

Lemma first_true_cycle_wins_witness :
  get_cycle_status_rinsing (rinsing_and_spinning "0") = true
  /\ get_cycle_status_spinning (rinsing_and_spinning "0") = true
  /\ washer_state (rinsing_and_spinning "0") = "Cycle Rinsing".
Proof.
  split; [reflexivity | split; [reflexivity | ]].
  apply (first_true_cycle_wins (rinsing_and_spinning "0")
           [ (get_cycle_status_filling, "Cycle Filling") ]
           [ (get_cycle_status_sensing, "Cycle Sensing");
             (get_cycle_status_soaking, "Cycle Soaking");
             (get_cycle_status_spinning, "Cycle Spinning");
             (get_cycle_status_washing, "Cycle Washing") ]
           get_cycle_status_rinsing "Cycle Rinsing").
  - vm_compute. discriminate.
  - reflexivity.
  - reflexivity.
  - repeat constructor.
  - reflexivity.
Defined.

Lemma running_without_cycle_witness :
  washer_state (quiet_washer ∅ RunningMainCycle) = "Running Maincycle".
Proof.
  apply running_without_cycle; try reflexivity.
  vm_compute. discriminate.
Defined.

Lemma unlisted_state_is_unknown_witness :
  MACHINE_STATE !! get_machine_state (quiet_washer ∅ (Unlisted 0)) = None
  /\ washer_state (quiet_washer ∅ (Unlisted 0)) = "unknown".
Proof.
  split; [reflexivity | ].
  apply (unlisted_state_is_unknown (quiet_washer ∅ (Unlisted 0))).
  - vm_compute. discriminate.
  - reflexivity.
Defined.

Lemma door_open_only_on_one_witness :
  washer_state (rinsing_and_spinning "true") <> "Door open"
  /\ washer_state (quiet_washer ∅ Pause) <> "Door open".
Proof.
  split.
  - apply (door_open_only_on_one (rinsing_and_spinning "true")).
    vm_compute. discriminate.
  - apply (door_open_only_on_one (quiet_washer ∅ Pause)).
    vm_compute. discriminate.
Defined.

Lemma dispense_level_lookup_witness :
  native_value detergent_level
    (quiet_washer {[ "WashCavity_OpStatusBulkDispense1Level" := "3" ]} Standby)
    = ret "50%"
  /\ native_value detergent_level
       (quiet_washer {[ "WashCavity_OpStatusBulkDispense1Level" := "6" ]} Standby)
       = raise KeyError
  /\ native_value detergent_level (quiet_washer ∅ Standby) = raise KeyError.
Proof.
  assert (Hin : detergent_level ∈ SENSORS) by (right; left).
  split; [ | split].
  - apply (proj1 (proj2 (dispense_level_lookup detergent_level _ Hin eq_refl)) "3").
    + rewrite !elem_of_cons. auto 10.
    + reflexivity.
  - apply (proj2 (proj2 (dispense_level_lookup detergent_level _ Hin eq_refl))).
    intros code [= <-]. rewrite !not_elem_of_cons.
    repeat split; try discriminate. apply not_elem_of_nil.
  - apply (proj2 (proj2 (dispense_level_lookup detergent_level _ Hin eq_refl))).
    intros code. discriminate.
Defined.

Lemma running_push_recomputes_witness :
  exists self1 self2,
    update_from_latest_data sample_value (running_washer "600")
      new_year_2023 init = Returned self1
    /\ update_from_latest_data sample_value (running_washer "300")
         (new_year_2023 + 5 * MICROSECOND) self1 = Returned self2
    /\ _running self2 = Some true
    /\ _attr_native_value self1 = Some (new_year_2023 + 600 * MICROSECOND)
    /\ _attr_native_value self2 = Some (new_year_2023 + 305 * MICROSECOND).
Proof.
  destruct (running_push_recomputes sample_value
              (running_washer "600") (running_washer "300")
              new_year_2023 (new_year_2023 + 5 * MICROSECOND) 600 300 init)
    as (self1 & self2 & stored1 & stored2 & Hpush1 & Hpush2 & _ & Hflag
        & Hval1 & Hval2 & -> & -> & _);
    [reflexivity | reflexivity | reflexivity | reflexivity
     | in_range | in_range | in_range | in_range | ].
  exists self1, self2.
  repeat split; assumption.
Defined.

Lemma finish_push_stores_now_witness :
  update_from_latest_data sample_value (quiet_washer ∅ Complete)
    (new_year_2023 + 607 * MICROSECOND) mid_run
  = Returned {| _running := Some false;
                _attr_native_value := Some (new_year_2023 + 607 * MICROSECOND);
                written := [ Some (new_year_2023 + 607 * MICROSECOND);
                             Some (new_year_2023 + 600 * MICROSECOND) ] |}.
Proof.
  apply (finish_push_stores_now sample_value (quiet_washer ∅ Complete)
           (new_year_2023 + 607 * MICROSECOND) mid_run).
  - left. reflexivity.
  - reflexivity.
Defined.

Lemma other_push_changes_nothing_witness :
  update_from_latest_data sample_value (quiet_washer ∅ Pause)
    (new_year_2023 + 90 * MICROSECOND) mid_run = Returned mid_run
  /\ update_from_latest_data sample_value (quiet_washer ∅ Standby)
       new_year_2023 init = Returned init.
Proof.
  split.
  - apply (other_push_changes_nothing sample_value sample_value_inj
             (quiet_washer ∅ Pause) (new_year_2023 + 90 * MICROSECOND) mid_run).
    + discriminate.
    + intros [[Hstate | Hstate] _]; discriminate Hstate.
  - apply (other_push_changes_nothing sample_value sample_value_inj
             (quiet_washer ∅ Standby) new_year_2023 init).
    + discriminate.
    + intros [_ Hflag]. discriminate Hflag.
Defined.

(** * Further properties of the status resolver *)

Section StatusStrings.

Implicit Types washer : WasherDryer.

Lemma washer_state_closed washer :
  get_attribute washer "Cavity_OpStatusDoorOpen" <> Some "1" ->
  washer_state washer =
    match (if decide (get_machine_state washer = RunningMainCycle)
           then cycle_loop CYCLE_FUNC washer else None) with
    | Some cycle_name => cycle_name
    | None => dict_get MACHINE_STATE (get_machine_state washer) STATE_UNKNOWN
    end.
Proof.
  intros Hdoor. unfold washer_state. by rewrite decide_False.
Qed.

Lemma state_of_status_closed washer :
  get_attribute washer "Cavity_OpStatusDoorOpen" <> Some "1" ->
  (exists k, get_machine_state washer = Unlisted k
             /\ washer_state washer = "unknown")
  \/ (state_of_status (washer_state washer) = Some (get_machine_state washer)
      /\ washer_state washer <> "unknown"
      /\ washer_state washer <> "Door open").
Proof.
  intros Hdoor. rewrite (washer_state_closed washer Hdoor).
  destruct washer as [attrs state filling rinsing sensing soaking spinning washing].
  simpl. clear Hdoor.
  destruct state as [ | | | | | | | | | | | | | | | | | | | k].
  20: { left. exists k. split; [reflexivity | ].
        rewrite decide_False by discriminate.
        unfold dict_get.
        by rewrite (proj2 (machine_state_listed (Unlisted k))) by eauto. }
  8: { right.
       destruct filling, rinsing, sensing, soaking, spinning, washing;
         vm_compute; repeat split; try reflexivity; discriminate. }
  all: right; vm_compute; repeat split; try reflexivity; discriminate.
Qed.

Lemma door_open_status washer :
  washer_state washer = "Door open"
  <-> get_attribute washer "Cavity_OpStatusDoorOpen" = Some "1".
Proof.
  split.
  - intros Hstatus.
    destruct (decide (get_attribute washer "Cavity_OpStatusDoorOpen" = Some "1"))
      as [Hdoor | Hdoor]; [exact Hdoor | exfalso].
    destruct (state_of_status_closed washer Hdoor)
      as [(k & _ & Hunknown) | (_ & _ & Hnot)].
    + rewrite Hunknown in Hstatus. discriminate.
    + by apply Hnot.
  - intros Hdoor. unfold washer_state. by rewrite decide_True.
Qed.

(** X1: the resolver answers "Door open" exactly when the door attribute is
    the string "1". *)
Theorem door_open_iff washer :
  washer_state washer = "Door open"
  <-> get_attribute washer "Cavity_OpStatusDoorOpen" = Some "1".
Proof. apply door_open_status. Qed.

(** X2: the resolver answers "unknown" exactly when the door is not open and
    the machine state is one the table does not list. *)
Theorem unknown_iff washer :
  washer_state washer = "unknown"
  <-> get_attribute washer "Cavity_OpStatusDoorOpen" <> Some "1"
      /\ MACHINE_STATE !! get_machine_state washer = None.
Proof.
  split.
  - intros Hstatus.
    destruct (decide (get_attribute washer "Cavity_OpStatusDoorOpen" = Some "1"))
      as [Hdoor | Hdoor].
    + apply door_open_status in Hdoor. rewrite Hdoor in Hstatus. discriminate.
    + split; [exact Hdoor | ].
      destruct (state_of_status_closed washer Hdoor)
        as [(k & Hstate & _) | (_ & Hnot & _)]; [ | by destruct Hnot].
      apply machine_state_listed. eauto.
  - intros [Hdoor [k Hstate]%machine_state_listed].
    destruct (state_of_status_closed washer Hdoor)
      as [(_ & _ & Hunknown) | (Hsome & _ & _)]; [exact Hunknown | ].
    rewrite Hstate in Hsome.
    unfold state_of_status in Hsome.
    case_bool_decide; [discriminate | ].
    apply head_Some_elem_of, list_elem_of_filter in Hsome as [_ Hin].
    unfold named_members in Hin. rewrite !elem_of_cons in Hin.
    repeat (destruct Hin as [Hin | Hin]; [discriminate | ]).
    by apply elem_of_nil in Hin.
Qed.

(** X3: with the door not open, the status string tells the machine state:
    two clients that show the same string are in the same state, or both in
    states the table does not list. *)
Theorem status_determines_state washer washer' :
  get_attribute washer "Cavity_OpStatusDoorOpen" <> Some "1" ->
  get_attribute washer' "Cavity_OpStatusDoorOpen" <> Some "1" ->
  washer_state washer = washer_state washer' ->
  get_machine_state washer = get_machine_state washer'
  \/ (MACHINE_STATE !! get_machine_state washer = None
      /\ MACHINE_STATE !! get_machine_state washer' = None).
Proof.
  intros Hdoor Hdoor' Hsame.
  destruct (state_of_status_closed washer Hdoor)
    as [(k & Hstate & Hunknown) | (Hsome & Hnot & _)];
  destruct (state_of_status_closed washer' Hdoor')
    as [(k' & Hstate' & Hunknown') | (Hsome' & Hnot' & _)].
  - right. split; apply machine_state_listed; eauto.
  - rewrite <- Hsame, Hunknown in Hnot'. by destruct Hnot'.
  - rewrite Hsame, Hunknown' in Hnot. by destruct Hnot.
  - left. rewrite Hsame in Hsome. congruence.
Qed.

Lemma cycle_label_not_reserved (cycle_name : string) :
  cycle_name ∈ CYCLE_FUNC.*2 ->
  cycle_name <> "Door open" /\ cycle_name <> "unknown".
Proof.
  unfold CYCLE_FUNC. simpl. rewrite !elem_of_cons.
  intros [-> | [-> | [-> | [-> | [-> | [-> | Hin]]]]]];
    try (split; discriminate).
  by apply elem_of_nil in Hin.
Qed.

(** X4: a sub-status label is shown only for what it says: the door is not
    open, the machine is in its main cycle, the label's predicate holds and
    every predicate probed before it is false. *)
Theorem cycle_label_sound washer (i : nat)
    (func : WasherDryer -> bool) (cycle_name : string) :
  CYCLE_FUNC !! i = Some (func, cycle_name) ->
  washer_state washer = cycle_name ->
  get_attribute washer "Cavity_OpStatusDoorOpen" <> Some "1"
  /\ get_machine_state washer = RunningMainCycle
  /\ func washer = true
  /\ Forall (fun entry => entry.1 washer = false) (take i CYCLE_FUNC).
Proof.
  intros Hi Hstatus.
  assert (Hlabel : cycle_name ∈ CYCLE_FUNC.*2).
  { apply list_elem_of_fmap. exists (func, cycle_name).
    split; [reflexivity | ]. by eapply list_elem_of_lookup_2. }
  assert (Hdoor : get_attribute washer "Cavity_OpStatusDoorOpen" <> Some "1").
  { intros Hopen%door_open_status. rewrite Hopen in Hstatus.
    by destruct (cycle_label_not_reserved cycle_name Hlabel). }
  split; [exact Hdoor | ].
  assert (Hstate : get_machine_state washer = RunningMainCycle).
  { destruct (state_of_status_closed washer Hdoor)
      as [(k & _ & Hunknown) | (Hsome & _ & _)].
    - rewrite Hunknown in Hstatus.
      by destruct (cycle_label_not_reserved cycle_name Hlabel).
    - rewrite Hstatus in Hsome. unfold state_of_status in Hsome.
      rewrite bool_decide_eq_true_2 in Hsome by exact Hlabel. congruence. }
  split; [exact Hstate | ].
  rewrite (washer_state_closed washer Hdoor) in Hstatus.
  clear Hlabel Hdoor.
  destruct washer as [attrs state filling rinsing sensing soaking spinning washing].
  simpl in *. subst state.
  destruct i as [ | [ | [ | [ | [ | [ | i]]]]]]; simpl in Hi; try discriminate Hi;
    injection Hi as <- <-; simpl;
    destruct filling, rinsing, sensing, soaking, spinning, washing;
    vm_compute in Hstatus; try discriminate Hstatus;
    split; try reflexivity; repeat constructor.
Qed.

End StatusStrings.

(** * Further properties of the completion-timestamp updater *)

Section TimestampRuns.

Variable value : MachineState -> Z.

(** Different members of an enumeration carry different values. *)
Hypothesis value_inj : forall m m', value m = value m' -> m = m'.

Implicit Types (wd : WasherDryer) (self : WasherDryerTimeClass).
Implicit Types (now : datetime) (seconds : Z).

Lemma running_value_not_finished :
  bool_decide (value RunningMainCycle ∈
                 ({[ value Complete; value Standby ]} : gset Z)) = false.
Proof.
  destruct (bool_decide _) eqn:Hin; [ | reflexivity].
  apply (finished_value_iff value value_inj) in Hin as [Hin | Hin];
    discriminate Hin.
Qed.

(** The callback in the main cycle, with the first branch out of the way. *)
Lemma running_update wd now self :
  get_machine_state wd = RunningMainCycle ->
  update_from_latest_data value wd now self =
    match
      bind (int (get_attribute wd "Cavity_TimeStatusEstTimeRemaining"))
        (fun seconds => bind (timedelta seconds) (datetime_add now))
    with
    | inr t => Returned (_async_write_ha_state
                           (set_native_value t (set_running true self)))
    | inl e => Raised e (set_running true self)
    end.
Proof.
  intros Hstate. unfold update_from_latest_data.
  rewrite Hstate, running_value_not_finished, decide_True by done.
  reflexivity.
Qed.

Lemma int_error (x : option string) (e : PyError) :
  int x = raise e ->
  (x = None /\ e = TypeError) \/ (is_Some x /\ e = ValueError).
Proof.
  unfold int. destruct x as [s | ].
  - destruct (literal _); [discriminate | ].
    intros [= <-]. right. eauto.
  - intros [= <-]. by left.
Qed.

Lemma shifted_error now seconds (e : PyError) :
  bind (timedelta seconds) (datetime_add now) = raise e -> e = OverflowError.
Proof.
  unfold timedelta.
  destruct (_ && _)%bool; simpl; [ | by intros [= <-]].
  unfold datetime_add.
  destruct (_ && _)%bool; [discriminate | by intros [= <-]].
Qed.

(** X5: the callback raises only in the main cycle. When it does, the
    running flag is already set, while the stored timestamp and the values
    written to the host are those from before the call; the exception is a
    [TypeError], [ValueError] or [OverflowError]. *)
Theorem raised_only_in_main_cycle wd now self (e : PyError) self' :
  update_from_latest_data value wd now self = Raised e self' ->
  get_machine_state wd = RunningMainCycle
  /\ self' = set_running true self
  /\ (e = TypeError \/ e = ValueError \/ e = OverflowError).
Proof.
  intros Hraised.
  destruct (decide (get_machine_state wd = RunningMainCycle)) as [Hstate | Hstate].
  - split; [exact Hstate | ].
    rewrite running_update in Hraised by exact Hstate.
    destruct (int _) as [e0 | seconds] eqn:Hint; simpl in Hraised.
    + injection Hraised as <- <-. split; [reflexivity | ].
      destruct (int_error _ _ Hint) as [[_ ->] | [_ ->]]; auto.
    + destruct (bind (timedelta seconds) _) as [e1 | t] eqn:Hshift;
        [ | discriminate Hraised].
      injection Hraised as <- <-. split; [reflexivity | ].
      apply shifted_error in Hshift. auto.
  - unfold update_from_latest_data in Hraised.
    rewrite (decide_False (P := _ = RunningMainCycle)) in Hraised by done.
    discriminate Hraised.
Qed.

(** X6: in the main cycle, a remaining-time attribute that is missing makes
    the callback raise [TypeError], and one that is no integer literal makes
    it raise [ValueError]; either way the flag is set and nothing else
    changes. *)
Theorem unreadable_remaining_raises wd now self (e : PyError) :
  get_machine_state wd = RunningMainCycle ->
  int (get_attribute wd "Cavity_TimeStatusEstTimeRemaining") = raise e ->
  update_from_latest_data value wd now self = Raised e (set_running true self)
  /\ (get_attribute wd "Cavity_TimeStatusEstTimeRemaining" = None ->
      e = TypeError)
  /\ (is_Some (get_attribute wd "Cavity_TimeStatusEstTimeRemaining") ->
      e = ValueError).
Proof.
  intros Hstate Hint. split.
  - rewrite running_update by exact Hstate. by rewrite Hint.
  - destruct (int_error _ _ Hint) as [[Hnone ->] | [Hsome ->]].
    + split; [done | ]. rewrite Hnone. by intros [? ?].
    + split; [ | done]. intros Hnone. rewrite Hnone in Hsome.
      by destruct Hsome.
Qed.

(** X7: in the main cycle, a remaining time that takes the sum out of the
    range of [datetime] makes the callback raise [OverflowError], with the
    flag set and nothing stored. *)
Theorem overflowing_remaining_raises wd now seconds self :
  get_machine_state wd = RunningMainCycle ->
  int (get_attribute wd "Cavity_TimeStatusEstTimeRemaining") = ret seconds ->
  ~ (0 <= now + seconds * MICROSECOND <= DATETIME_MAX) ->
  update_from_latest_data value wd now self =
    Raised OverflowError (set_running true self).
Proof.
  intros Hstate Hint Hout.
  rewrite running_update by exact Hstate.
  rewrite Hint. simpl.
  unfold timedelta.
  destruct (_ && _)%bool; [ | reflexivity]. simpl.
  unfold datetime_add.
  destruct (Z.leb 0 _ && Z.leb _ DATETIME_MAX)%bool eqn:Hin; [ | reflexivity].
  apply andb_prop in Hin as [Hlo%Z.leb_le Hhi%Z.leb_le].
  by destruct Hout.
Qed.

(** X8: a call that returns either leaves the entity as it was, or writes
    the new stored timestamp to the host, once: no change of the flag or of
    the timestamp goes unwritten. *)
Theorem returned_change_is_written wd now self self' :
  update_from_latest_data value wd now self = Returned self' ->
  self' = self
  \/ (written self' = _attr_native_value self' :: written self
      /\ is_Some (_attr_native_value self')).
Proof.
  intros Hreturned.
  destruct (decide (get_machine_state wd = RunningMainCycle)) as [Hstate | Hstate].
  - rewrite running_update in Hreturned by exact Hstate.
    destruct (bind _ _) as [e | t]; [discriminate Hreturned | ].
    injection Hreturned as <-. right. simpl. eauto.
  - unfold update_from_latest_data in Hreturned.
    rewrite (decide_False (P := _ = RunningMainCycle)) in Hreturned by done.
    injection Hreturned as <-.
    destruct (_ && _)%bool; [ | by left].
    right. simpl. eauto.
Qed.

(** X9: after a restart the running flag is unset, so the timestamp the
    host restored stays the stored one through any number of pushes outside
    the main cycle, complete and standby included, and nothing is written. *)
Theorem restored_value_survives (restored : SensorExtraStoredData.t)
    (events : list (WasherDryer * datetime)) :
  Forall (fun event => get_machine_state event.1 <> RunningMainCycle) events ->
  pushes value events (async_added_to_hass (Some restored) init) =
    Returned {| _running := None;
                _attr_native_value := SensorExtraStoredData.native_value restored;
                written := [] |}.
Proof.
  intros Hevents.
  rewrite (idle_pushes value value_inj); [reflexivity | exact Hevents | ].
  simpl. discriminate.
Qed.

Lemma estimate_run (run : list (WasherDryer * datetime)) self :
  Forall stores_estimate run ->
  exists self',
    pushes value run self = Returned self'
    /\ (run <> [] -> _running self' = Some true)
    /\ (run = [] -> self' = self)
    /\ length (written self') = (length (written self) + length run)%nat.
Proof.
  intros Hrun. revert self.
  induction Hrun as [ | [wd now] rest Hevent _ IH]; intros self.
  - exists self. simpl. repeat split; (done || lia).
  - destruct Hevent as (Hstate & seconds & Hint & Hnow & Hsum). simpl in *.
    rewrite running_update by exact Hstate.
    rewrite Hint. simpl.
    rewrite (timedelta_within now) by done. simpl.
    rewrite datetime_add_within by done.
    destruct (IH (_async_write_ha_state
                    (set_native_value (now + seconds * MICROSECOND)
                       (set_running true self))))
      as (self' & Hpushes & Hflag & Hempty & Hlen).
    exists self'. split; [exact Hpushes | ].
    split; [ | split; [discriminate | ]].
    + intros _. destruct rest as [ | event rest'].
      * by rewrite (Hempty eq_refl).
      * by apply Hflag.
    + rewrite Hlen. simpl. lia.
Qed.

Lemma pushes_app (run run' : list (WasherDryer * datetime)) self self' :
  pushes value run self = Returned self' ->
  pushes value (run ++ run')%list self = pushes value run' self'.
Proof.
  revert self. induction run as [ | [wd now] rest IH]; intros self; simpl.
  - by intros [= ->].
  - destruct (update_from_latest_data value wd now self); [ | discriminate].
    apply IH.
Qed.

(** X10: a whole cycle. After one or more pushes in the main cycle that
    each store an estimate, the first complete or standby push returns with
    the flag cleared and its own arrival instant stored, whatever the
    estimates were; every push of the cycle has written once to the host. *)
Theorem cycle_ends_at_completion_push (run : list (WasherDryer * datetime))
    wd now self :
  run <> [] ->
  Forall stores_estimate run ->
  get_machine_state wd = Complete \/ get_machine_state wd = Standby ->
  exists self',
    pushes value (run ++ [(wd, now)])%list self = Returned self'
    /\ _running self' = Some false
    /\ _attr_native_value self' = Some now
    /\ length (written self') = (length (written self) + length run + 1)%nat.
Proof.
  intros Hnonempty Hrun Hstate.
  destruct (estimate_run run self Hrun) as (mid & Hpushes & Hflag & _ & Hlen).
  rewrite (pushes_app run _ self mid Hpushes). simpl.
  rewrite finishing_push by auto.
  eexists. split; [reflexivity | ]. simpl.
  repeat split. lia.
Qed.

End TimestampRuns.

(** * Properties of entity construction and of the whirlpool setup *)

Section WhirlpoolSetup.

Variable DOMAIN : string.

Implicit Types (appliance : gmap string string) (said name : string).

Lemma occurs_append (c : ascii) (s t : string) :
  occurs c (s +:+ String c t) = true.
Proof.
  induction s as [ | a s IH]; simpl.
  - by rewrite Ascii.eqb_refl.
  - rewrite IH. apply orb_true_r.
Qed.

(** A unique id splits at its last dash. *)
Lemma unique_id_split said said' (k k' : string) :
  occurs "-" k = false -> occurs "-" k' = false ->
  said +:+ String "-" k = said' +:+ String "-" k' ->
  said = said' /\ k = k'.
Proof.
  intros Hk Hk'. revert said'.
  induction said as [ | a said IH]; intros [ | a' said']; simpl.
  - by intros [= ->].
  - intros [= _ Heq]. rewrite Heq, occurs_append in Hk. discriminate.
  - intros [= _ Heq]. rewrite <- Heq, occurs_append in Hk'. discriminate.
  - intros [= <- Hrest]. by destruct (IH said' Hrest) as [-> ->].
Qed.

Lemma appliance_entities_cases appliance :
  (exists said name,
      appliance !! "SAID" = Some said /\ appliance !! "NAME" = Some name
      /\ appliance_entities DOMAIN appliance = ret (built_for DOMAIN said name))
  \/ ((appliance !! "SAID" = None \/ appliance !! "NAME" = None)
      /\ appliance_entities DOMAIN appliance = raise KeyError).
Proof.
  unfold appliance_entities, dict_item. simpl.
  destruct (appliance !! "SAID") as [said | ]; simpl; [ | right; auto].
  destruct (appliance !! "NAME") as [name | ]; simpl; [ | right; auto].
  left. by exists said, name.
Qed.

Lemma setup_inv (washer_dryers : list (gmap string string))
    (entities : list Entity) :
  async_setup_entry DOMAIN washer_dryers = ret entities ->
  exists owners : list (string * string),
    Forall2 (fun appliance owner =>
               appliance !! "SAID" = Some owner.1
               /\ appliance !! "NAME" = Some owner.2) washer_dryers owners
    /\ entities = owners ≫= (fun owner => built_for DOMAIN owner.1 owner.2).
Proof.
  revert entities.
  induction washer_dryers as [ | appliance rest IH]; intros entities; simpl.
  - intros [= <-]. exists []. by split.
  - destruct (appliance_entities_cases appliance)
      as [(said & name & Hsaid & Hname & ->) | [_ ->]]; simpl; [ | discriminate].
    destruct (async_setup_entry DOMAIN rest) as [e | more]; simpl;
      [discriminate | ].
    intros [= <-].
    destruct (IH more eq_refl) as (owners & Howners & ->).
    exists ((said, name) :: owners). split; [by constructor | reflexivity].
Qed.

(** X11: a setup that goes through hands the host three entities for each
    appliance, in the order of the appliances: the "state" sensor, the
    "DispenseLevel" sensor and the "timeremaining" timestamp, each tied to
    the appliance's SAID. *)
Theorem setup_three_entities_per_appliance
    (washer_dryers : list (gmap string string)) (entities : list Entity) :
  async_setup_entry DOMAIN washer_dryers = ret entities ->
  length entities = (3 * length washer_dryers)%nat
  /\ exists saids : list string,
       Forall2 (fun appliance said => appliance !! "SAID" = Some said)
         washer_dryers saids
       /\ (fun e => (said_of e, key_of e)) <$> entities =
            saids ≫= (fun said => [ (said, "state"); (said, "DispenseLevel");
                                    (said, "timeremaining") ]).
Proof.
  intros (owners & Howners & ->)%setup_inv.
  induction Howners as [ | appliance [said name] rest owners [Hsaid _] _ IH].
  - split; [reflexivity | ]. exists []. by split.
  - destruct IH as (Hlen & saids & Hsaids & Hkeys).
    rewrite bind_cons, length_app, fmap_app, Hlen, Hkeys.
    split; [simpl; lia | ].
    exists (said :: saids). split; [by constructor | reflexivity].
Qed.

(** X12: when the appliances have different SAIDs, no two entities of a
    setup share a unique id. *)
Theorem setup_unique_ids_differ
    (washer_dryers : list (gmap string string)) (entities : list Entity) :
  async_setup_entry DOMAIN washer_dryers = ret entities ->
  NoDup ((.!! "SAID") <$> washer_dryers) ->
  NoDup ((fun e => _attr_unique_id (attrs_of e)) <$> entities).
Proof.
  intros (owners & Howners & ->)%setup_inv Hsaids.
  set (ids := fun owner : string * string =>
                [ owner.1 +:+ String "-" "state";
                  owner.1 +:+ String "-" "DispenseLevel";
                  owner.1 +:+ String "-" "timeremaining" ]).
  assert (Hids : (fun e => _attr_unique_id (attrs_of e))
                   <$> (owners ≫= (fun owner => built_for DOMAIN owner.1 owner.2))
                 = owners ≫= ids).
  { clear. induction owners as [ | owner owners IH]; [reflexivity | ].
    rewrite !bind_cons, fmap_app, IH. reflexivity. }
  rewrite Hids.
  assert (Hkeys : forall owner id, id ∈ ids owner ->
            exists k, occurs "-" k = false /\ id = owner.1 +:+ String "-" k).
  { intros owner id. unfold ids. rewrite !elem_of_cons.
    intros [-> | [-> | [-> | Hin]]];
      [ eexists; split; [ | reflexivity]; reflexivity ..
      | by apply elem_of_nil in Hin ]. }
  assert (Hsame : forall owner owner', owner ∈ owners -> owner' ∈ owners ->
            owner.1 = owner'.1 -> owner = owner').
  { clear -Howners Hsaids.
    induction Howners as [ | appliance owner rest owners [Hsaid Hname] Hrest IH];
      intros o o'; [by intros ?%elem_of_nil | ].
    rewrite fmap_cons in Hsaids. apply NoDup_cons in Hsaids as [Hfresh Hnodup].
    assert (Hhead : forall o, o ∈ owners -> o.1 <> owner.1).
    { intros o1 Hin Heq. apply Hfresh.
      apply list_elem_of_lookup in Hin as [i Hi].
      destruct (Forall2_lookup_r _ _ _ _ _ Hrest Hi) as (a & Ha & Hsaid' & _).
      rewrite Hsaid, <- Heq, <- Hsaid'.
      apply list_elem_of_fmap. exists a. split; [reflexivity | ].
      by eapply list_elem_of_lookup_2. }
    rewrite !elem_of_cons. intros [-> | Hin] [-> | Hin'] Heq.
    - reflexivity.
    - symmetry in Heq. by destruct (Hhead o' Hin').
    - by destruct (Hhead o Hin).
    - by apply IH. }
  apply NoDup_bind.
  - intros owner owner' id Hin Hin' Hid Hid'.
    destruct (Hkeys owner id Hid) as (k & Hk & ->).
    destruct (Hkeys owner' _ Hid') as (k' & Hk' & Heq).
    apply Hsame; [done | done | ].
    by destruct (unique_id_split _ _ _ _ Hk Hk' Heq).
  - intros owner _. unfold ids.
    assert (Hdiff : forall k k', k <> k' ->
              owner.1 +:+ String "-" k <> owner.1 +:+ String "-" k').
    { intros k k' Hne Heq. apply Hne. clear Hne.
      induction (owner.1) as [ | a s IH]; simpl in Heq.
      - by injection Heq.
      - injection Heq as Heq. by apply IH. }
    repeat constructor; rewrite ?not_elem_of_cons; repeat split;
      try apply not_elem_of_nil; apply Hdiff; discriminate.
  - clear -Howners Hsaids Hsame.
    assert (Hfst : NoDup owners.*1).
    { apply (NoDup_fmap_1 Some).
      replace (Some <$> owners.*1) with ((.!! "SAID") <$> washer_dryers);
        [exact Hsaids | ].
      clear -Howners.
      induction Howners as [ | a o rest owners [Hsaid _] _ IH];
        [reflexivity | ].
      rewrite !fmap_cons. f_equal; [exact Hsaid | exact IH]. }
    by apply NoDup_fmap_1 in Hfst.
Qed.


Lemma upper_D_iff (a : ascii) : upper a = "D"%char <-> lower a = "d"%char.
Proof.
  destruct a as [[ | ] [ | ] [ | ] [ | ] [ | ] [ | ] [ | ] [ | ]];
    vm_compute; split; (reflexivity || discriminate).
Qed.

(** X14: the dryer icon is set exactly for an appliance named "dryer" in
    any mix of upper and lower case; for every other name the icon
    attribute stays unset and the description's icon applies. *)
Theorem dryer_icon_iff said name (description_key : string) :
  (_attr_icon (init_attrs DOMAIN said name description_key) = Some ICON_D
   <-> str_lower name = "dryer")
  /\ (str_lower name <> "dryer" ->
      _attr_icon (init_attrs DOMAIN said name description_key) = None).
Proof.
  assert (Hcap : capitalize name = "Dryer" <-> str_lower name = "dryer").
  { destruct name as [ | a rest]; simpl; [split; discriminate | ].
    split; intros [= Ha Hrest].
    - apply upper_D_iff in Ha. by rewrite Ha, Hrest.
    - apply upper_D_iff in Ha. by rewrite Ha, Hrest. }
  unfold init_attrs. simpl.
  destruct (decide (capitalize name = "Dryer")) as [Hdryer | Hdryer].
  - apply Hcap in Hdryer. split; [by split | by intros Hother].
  - split; [ | done]. split; [discriminate | by intros ?%Hcap].
Qed.

End WhirlpoolSetup.

(** * Further properties of the network metric adapter and its setup *)

Section NetworkSetup.

Import Devolo.

Implicit Types (data : LogicalNetwork) (d : Device).

Lemma plc_count data :
  native_value CONNECTED_PLC_DEVICES data = length (remove_dups (sources data)).
Proof. apply size_list_to_set_strings. Qed.

Lemma length_remove_dups (l : list string) :
  (length (remove_dups l) <= length l)%nat.
Proof.
  induction l as [ | a l IH]; simpl; [lia | ].
  destruct (decide_rel elem_of a l); simpl; lia.
Qed.

(** X15: the powerline count depends on the set of source addresses alone:
    the order of the records, repeated sources and the destination
    addresses do not enter it. *)
Theorem plc_count_depends_on_sources data data' :
  (forall a, a ∈ sources data <-> a ∈ sources data') ->
  native_value CONNECTED_PLC_DEVICES data
  = native_value CONNECTED_PLC_DEVICES data'.
Proof.
  intros Hsame. unfold native_value. simpl. unfold len_set.
  f_equal. apply set_eq. intros a.
  rewrite !elem_of_list_to_set. apply Hsame.
Qed.

(** X16: the powerline count never exceeds the number of data-rate records,
    and it is zero exactly for a snapshot without records. *)
Theorem plc_count_bounds data :
  (native_value CONNECTED_PLC_DEVICES data <= length (data_rates data))%nat
  /\ (native_value CONNECTED_PLC_DEVICES data = 0%nat <-> data_rates data = []).
Proof.
  rewrite plc_count. unfold sources. split.
  - etrans; [apply length_remove_dups | ]. by rewrite length_fmap.
  - destruct (data_rates data) as [ | rate rates]; [done | ].
    split; [ | discriminate]. intros Hzero%length_zero_iff_nil.
    assert (Hin : mac_address_from rate ∈
                    remove_dups (mac_address_from <$> rate :: rates))
      by (apply elem_of_remove_dups; left).
    rewrite Hzero in Hin. by apply elem_of_nil in Hin.
Qed.

(** X17: one more data-rate record raises the powerline count by one when
    its source address is new, and leaves it as it is when another record
    already has that source. *)
Theorem plc_count_add_record (rate : DataRate) (rates : list DataRate) :
  native_value CONNECTED_PLC_DEVICES {| data_rates := rate :: rates |} =
    if bool_decide (mac_address_from rate ∈ mac_address_from <$> rates)
    then native_value CONNECTED_PLC_DEVICES {| data_rates := rates |}
    else S (native_value CONNECTED_PLC_DEVICES {| data_rates := rates |}).
Proof.
  rewrite !plc_count. unfold sources. simpl.
  case_bool_decide as Hin;
    destruct (decide_rel elem_of _ _) as [Hin' | Hin']; done.
Qed.

(** X18: a setup that goes through creates the powerline entity exactly for
    a device with a powerline interface, and the two Wi-Fi entities, both or
    neither, exactly for a device with the "wifi1" feature; no key occurs
    twice, and each entity holds the coordinator registered under its key
    and the entry's title. *)
Theorem setup_entities d (coordinators : Coordinators) (title : string)
    (entities : list DevoloSensorEntity) :
  async_setup_entry d coordinators title = ret entities ->
  NoDup (entity_key <$> entities)
  /\ (forall k, k ∈ entity_key <$> entities <->
        (k = CONNECTED_PLC_DEVICES /\ is_Some (plcnet d))
        \/ ((k = CONNECTED_WIFI_CLIENTS \/ k = NEIGHBORING_WIFI_NETWORKS)
            /\ has_wifi d = true))
  /\ Forall (fun entity =>
               coordinators (entity_key entity) = Some (coordinator entity)
               /\ device_name entity = title
               /\ entity_device entity = d) entities.
Proof.
  unfold async_setup_entry, new_entity, coordinator_item.
  destruct (plcnet d) as [api | ] eqn:Hplc;
    destruct (has_wifi d) eqn:Hwifi;
    destruct (coordinators CONNECTED_PLC_DEVICES) as [c1 | ] eqn:H1;
    destruct (coordinators CONNECTED_WIFI_CLIENTS) as [c2 | ] eqn:H2;
    destruct (coordinators NEIGHBORING_WIFI_NETWORKS) as [c3 | ] eqn:H3;
    simpl; try discriminate; intros [= <-]; simpl.
  all: split; [repeat constructor; rewrite ?not_elem_of_cons;
               repeat split; try discriminate; apply not_elem_of_nil | ].
  all: split; [ | by repeat constructor].
  all: intros k; rewrite ?elem_of_cons, ?elem_of_nil.
  all: pose proof (@is_Some_None PlcNetApi) as Hnone.
  all: destruct k; intuition (try discriminate; eauto).
Qed.


End NetworkSetup.

(** * The further properties at sample inputs *)

Lemma status_determines_state_witness :
  washer_state (rinsing_and_spinning "0") = washer_state rinsing_only
  /\ (get_machine_state (rinsing_and_spinning "0") = get_machine_state rinsing_only
      \/ (MACHINE_STATE !! get_machine_state (rinsing_and_spinning "0") = None
          /\ MACHINE_STATE !! get_machine_state rinsing_only = None)).
Proof.
  split; [reflexivity | ].
  apply (status_determines_state (rinsing_and_spinning "0") rinsing_only).
  - vm_compute. discriminate.
  - vm_compute. discriminate.
  - reflexivity.
Defined.

Lemma cycle_label_sound_witness :
  washer_state (rinsing_and_spinning "0") = "Cycle Rinsing"
  /\ get_machine_state (rinsing_and_spinning "0") = RunningMainCycle
  /\ get_cycle_status_rinsing (rinsing_and_spinning "0") = true
  /\ Forall (fun entry => entry.1 (rinsing_and_spinning "0") = false)
       (take 1 CYCLE_FUNC).
Proof.
  split; [reflexivity | ].
  apply (cycle_label_sound (rinsing_and_spinning "0") 1
           get_cycle_status_rinsing "Cycle Rinsing").
  - reflexivity.
  - reflexivity.
Defined.

Lemma raised_only_in_main_cycle_witness :
  update_from_latest_data sample_value (running_washer "soon") new_year_2023 mid_run
    = Raised ValueError mid_run
  /\ get_machine_state (running_washer "soon") = RunningMainCycle.
Proof.
  assert (Hraised :
    update_from_latest_data sample_value (running_washer "soon")
      new_year_2023 mid_run = Raised ValueError mid_run)
    by reflexivity.
  split; [exact Hraised | ].
  apply (raised_only_in_main_cycle sample_value sample_value_inj
           (running_washer "soon") new_year_2023 mid_run ValueError mid_run
           Hraised).
Defined.

Lemma unreadable_remaining_raises_witness :
  update_from_latest_data sample_value (quiet_washer ∅ RunningMainCycle)
    new_year_2023 init
  = Raised TypeError {| _running := Some true;
                        _attr_native_value := None;
                        written := [] |}.
Proof.
  apply (unreadable_remaining_raises sample_value sample_value_inj
           (quiet_washer ∅ RunningMainCycle) new_year_2023 init TypeError).
  - reflexivity.
  - reflexivity.
Defined.

Lemma overflowing_remaining_raises_witness :
  update_from_latest_data sample_value (running_washer "999999999999")
    new_year_2023 mid_run
  = Raised OverflowError mid_run.
Proof.
  apply (overflowing_remaining_raises sample_value sample_value_inj
           (running_washer "999999999999") new_year_2023 999999999999 mid_run).
  - reflexivity.
  - reflexivity.
  - in_range.
Defined.

Lemma returned_change_is_written_witness :
  update_from_latest_data sample_value (running_washer "300")
    (new_year_2023 + 5 * MICROSECOND) mid_run
  = Returned {| _running := Some true;
                _attr_native_value := Some (new_year_2023 + 305 * MICROSECOND);
                written := [ Some (new_year_2023 + 305 * MICROSECOND);
                             Some (new_year_2023 + 600 * MICROSECOND) ] |}
  /\ written mid_run = [ Some (new_year_2023 + 600 * MICROSECOND) ].
Proof.
  assert (Hreturned :
    update_from_latest_data sample_value (running_washer "300")
      (new_year_2023 + 5 * MICROSECOND) mid_run
    = Returned {| _running := Some true;
                  _attr_native_value := Some (new_year_2023 + 305 * MICROSECOND);
                  written := [ Some (new_year_2023 + 305 * MICROSECOND);
                               Some (new_year_2023 + 600 * MICROSECOND) ] |})
    by reflexivity.
  split; [exact Hreturned | ].
  destruct (returned_change_is_written sample_value sample_value_inj
              _ _ _ _ Hreturned) as [Hsame | [Hwritten _]].
  - discriminate Hsame.
  - reflexivity.
Defined.

Lemma restored_value_survives_witness :
  pushes sample_value
    [ (quiet_washer ∅ Complete, new_year_2023 + 900 * MICROSECOND);
      (quiet_washer ∅ Standby, new_year_2023 + 960 * MICROSECOND) ]
    (async_added_to_hass (Some last_stored) init)
  = Returned {| _running := None;
                _attr_native_value := Some (new_year_2023 + 600 * MICROSECOND);
                written := [] |}.
Proof.
  apply (restored_value_survives sample_value sample_value_inj last_stored).
  repeat constructor; discriminate.
Defined.

Lemma cycle_ends_at_completion_push_witness :
  exists self',
    pushes sample_value
      (two_estimates ++ [ (quiet_washer ∅ Complete,
                           new_year_2023 + 310 * MICROSECOND) ])%list init
      = Returned self'
    /\ _running self' = Some false
    /\ _attr_native_value self' = Some (new_year_2023 + 310 * MICROSECOND)
    /\ length (written self') = 3%nat.
Proof.
  apply (cycle_ends_at_completion_push sample_value sample_value_inj
           two_estimates (quiet_washer ∅ Complete)
           (new_year_2023 + 310 * MICROSECOND) init).
  - discriminate.
  - repeat constructor; simpl.
    + exists 600. repeat split; try reflexivity; in_range.
    + exists 300. repeat split; try reflexivity; in_range.
  - left. reflexivity.
Defined.

Lemma setup_three_entities_per_appliance_witness :
  exists entities,
    Whirlpool.async_setup_entry "whirlpool" two_appliances = ret entities
    /\ length entities = 6%nat.
Proof.
  exists (built_for "whirlpool" "WPR1" "washer"
          ++ built_for "whirlpool" "WPR2" "DRYER")%list.
  assert (Hsetup :
    Whirlpool.async_setup_entry "whirlpool" two_appliances =
      ret (built_for "whirlpool" "WPR1" "washer"
           ++ built_for "whirlpool" "WPR2" "DRYER")%list)
    by reflexivity.
  split; [exact Hsetup | ].
  apply (setup_three_entities_per_appliance "whirlpool" two_appliances _ Hsetup).
Defined.

Lemma setup_unique_ids_differ_witness :
  NoDup ((fun e => _attr_unique_id (attrs_of e))
           <$> (built_for "whirlpool" "WPR1" "washer"
                ++ built_for "whirlpool" "WPR2" "DRYER")%list).
Proof.
  apply (setup_unique_ids_differ "whirlpool" two_appliances).
  - reflexivity.
  - repeat constructor; rewrite ?not_elem_of_cons; repeat split;
      try discriminate; apply not_elem_of_nil.
Defined.

Lemma plc_count_depends_on_sources_witness :
  Devolo.native_value Devolo.CONNECTED_PLC_DEVICES
    {| Devolo.data_rates := [link "A" "B"; link "A" "C"; link "B" "A"] |}
  = Devolo.native_value Devolo.CONNECTED_PLC_DEVICES
      {| Devolo.data_rates := [link "B" "C"; link "A" "C"] |}.
Proof.
  apply plc_count_depends_on_sources.
  intros a. unfold sources. simpl.
  rewrite !elem_of_cons, !elem_of_nil. tauto.
Defined.

Lemma setup_entities_witness :
  exists entities,
    Devolo.async_setup_entry wifi_adapter all_coordinators "Adapter" = ret entities
    /\ Devolo.entity_key <$> entities =
         [ Devolo.CONNECTED_PLC_DEVICES; Devolo.CONNECTED_WIFI_CLIENTS;
           Devolo.NEIGHBORING_WIFI_NETWORKS ]
    /\ NoDup (Devolo.entity_key <$> entities).
Proof.
  eexists. split; [reflexivity | ]. split; [reflexivity | ].
  apply (setup_entities wifi_adapter all_coordinators "Adapter").
  reflexivity.
Defined.
